(** * pytensordock: the TensorDock marketplace client

    A shallow embedding of [src/pytensordock/api.py].  The class
    [TensorDockWrapper] has one method per remote endpoint; every method
    builds a dictionary of fields, hands it to [_send_request] and returns
    what came back, after an optional pretty-print.

    The embedding keeps the three effects the methods have: the requests
    handed to the HTTP library (a log of [Request]s), the lines printed on
    the console (a log of [Output]s) and Python exceptions (the [Raise]
    result).  The client instance is part of the state, so that a method
    which assigned to one of its attributes would show. *)

From Stdlib Require Import ZArith List String Ascii Bool Lia.
From Stdlib Require Import DecimalString DecimalZ DecimalPos.
Import ListNotations.
Open Scope string_scope.
Open Scope Z_scope.

(** ** Python values *)

(** A Python float.  The client never computes with a float, it only
    calls [str] on it, so a float is represented by its [repr]. *)
Record pyfloat := Float { float_repr : string }.

(** What [response.json()] can decode to, together with [None], which is
    also what a method without a [return] statement gives back. *)
#[warnings="-register-all"]
Inductive pyval :=
| PyNone
| PyBool (b : bool)
| PyInt (z : Z)
| PyFloat (x : pyfloat)
| PyStr (s : string)
| PyList (l : list pyval)
| PyDict (d : list (string * pyval)).

(** The values the methods place in a payload or in query parameters:
    strings, [None] for an omitted optional, and the integers and booleans
    that [list_available_hostnodes] passes on as they are. *)
Inductive field_value :=
| VNone
| VBool (b : bool)
| VInt (z : Z)
| VStr (s : string).

(** A dictionary literal, in the order it is written. *)
Definition fields := list (string * field_value).

Fixpoint lookup (k : string) (d : fields) : option field_value :=
  match d with
  | [] => None
  | (k', v) :: rest => if String.eqb k k' then Some v else lookup k rest
  end.

(** *** [str], [str.lower] and [str.join] *)

Module Py.

Definition str_bool (b : bool) : string := if b then "True" else "False".

Definition str_int (z : Z) : string := NilZero.string_of_int (Z.to_int z).

Definition str_float (x : pyfloat) : string := float_repr x.

(** [str] of an optional float: [str(None)] is the text [None]. *)
Definition str_opt_float (x : option pyfloat) : string :=
  match x with
  | Some f => str_float f
  | None => "None"
  end.

Definition lower_ascii (c : ascii) : ascii :=
  let n := nat_of_ascii c in
  if ((65 <=? n) && (n <=? 90))%nat then ascii_of_nat (n + 32) else c.

Fixpoint lower (s : string) : string :=
  match s with
  | EmptyString => EmptyString
  | String c rest => String (lower_ascii c) (lower rest)
  end.

(** [sep.join(items)] *)
Definition join (sep : string) (items : list string) : string :=
  String.concat sep items.

End Py.

(** ** The HTTP library

    [requests] is not part of the repository.  Its behaviour at the four
    places the client touches it is modelled here: [requests.request],
    [Response.raise_for_status], [Response.json] and the encoding of a
    dictionary into a form body or a query string. *)

Inductive exn_class :=
| ConnectionError
| Timeout
| HTTPError
| JSONDecodeError.

(** An exception; [exn_msg] is what [str(e)] gives. *)
Record exn := Exn { exn_cls : exn_class; exn_msg : string }.

(** Every exception [requests] raises derives from
    [requests.exceptions.RequestException]; the one of [Response.json] does
    so from version 2.27 on, which is the behaviour taken here. *)
Definition is_RequestException (e : exn) : bool :=
  match exn_cls e with
  | ConnectionError | Timeout | HTTPError | JSONDecodeError => true
  end.

(** [requests.exceptions.JSONDecodeError] also derives from
    [json.JSONDecodeError]; the other three do not. *)
Definition is_json_JSONDecodeError (e : exn) : bool :=
  match exn_cls e with
  | JSONDecodeError => true
  | _ => false
  end.

Record Request := mkRequest {
  req_method : string;
  req_url : string;
  req_data : option fields;
  req_params : option fields
}.

Inductive Body :=
| JsonBody (v : pyval)
| BadBody (msg : string).

Record Response := mkResponse {
  status_code : Z;
  reason : string;
  url : string;
  content : Body
}.

(** What happens to one request: no response at all, the library raises;
    or a response with a status. *)
Inductive HttpResult :=
| Unreachable (e : exn)
| Answered (r : Response).

Definition Server := Request -> HttpResult.

(** How [requests] writes one dictionary value into a form body or a query
    string: a [None] is left out, everything else goes through [str]. *)
Definition wire_value (v : field_value) : option string :=
  match v with
  | VNone => None
  | VBool b => Some (Py.str_bool b)
  | VInt z => Some (Py.str_int z)
  | VStr s => Some s
  end.

Fixpoint encode (d : fields) : list (string * string) :=
  match d with
  | [] => []
  | (k, v) :: rest =>
      match wire_value v with
      | Some s => (k, s) :: encode rest
      | None => encode rest
      end
  end.

(** ** The client instance and the world around it *)

Record TensorDockWrapper := mkWrapper {
  base_url : string;
  api_key : string;
  api_token : string;
  debug : bool
}.

Definition __init__ (api_key api_token : string) (debug : bool)
  : TensorDockWrapper :=
  {| base_url := "https://marketplace.tensordock.com/api/v0/";
     api_key := api_key;
     api_token := api_token;
     debug := debug |}.

(** One call of [print]: a text, or [json.dumps(v, indent=n)], whose
    encoder is outside the repository and is kept symbolic. *)
Inductive Output :=
| OutText (s : string)
| OutDumps (indent : nat) (v : pyval).

Record World := mkWorld {
  self : TensorDockWrapper;
  stdout : list Output;
  network : list Request
}.

(** ** A monad for the methods: reader of the server, state, exceptions *)

Inductive Result (A : Type) :=
| Ok (a : A)
| Raise (e : exn).
Arguments Ok {A} a.
Arguments Raise {A} e.

Definition M (A : Type) : Type := Server -> World -> Result A * World.

Definition ret {A} (a : A) : M A := fun _ w => (Ok a, w).

Definition bind {A B} (m : M A) (k : A -> M B) : M B :=
  fun srv w =>
    match m srv w with
    | (Ok a, w') => k a srv w'
    | (Raise e, w') => (Raise e, w')
    end.

Definition raise {A} (e : exn) : M A := fun _ w => (Raise e, w).

(** [try: m  except C as e: h e], where [catches] says whether the
    exception is an instance of [C]. *)
Definition try_except {A} (m : M A) (catches : exn -> bool) (h : exn -> M A)
  : M A :=
  fun srv w =>
    match m srv w with
    | (Ok a, w') => (Ok a, w')
    | (Raise e, w') => if catches e then h e srv w' else (Raise e, w')
    end.

Notation "x <- m ;; k" := (bind m (fun x => k))
  (at level 61, m at next level, right associativity).
Notation "m ;; k" := (bind m (fun _ => k))
  (at level 61, right associativity).

Definition get_self : M TensorDockWrapper := fun _ w => (Ok (self w), w).

Definition print (o : Output) : M unit :=
  fun _ w =>
    (Ok tt, {| self := self w; stdout := stdout w ++ [o]; network := network w |}).

(** [requests.request(method, url, data=payload, params=params)] *)
Definition requests_request (method url : string)
    (data params : option fields) : M Response :=
  fun srv w =>
    let rq := mkRequest method url data params in
    let w' := {| self := self w; stdout := stdout w;
                 network := network w ++ [rq] |} in
    match srv rq with
    | Unreachable e => (Raise e, w')
    | Answered r => (Ok r, w')
    end.

(** [Response.raise_for_status]: an [HTTPError] for a status from 400 to
    599, nothing otherwise. *)
Definition http_error_msg (r : Response) : option string :=
  if (400 <=? status_code r) && (status_code r <? 500) then
    Some (Py.str_int (status_code r) ++ " Client Error: " ++ reason r
          ++ " for url: " ++ url r)
  else if (500 <=? status_code r) && (status_code r <? 600) then
    Some (Py.str_int (status_code r) ++ " Server Error: " ++ reason r
          ++ " for url: " ++ url r)
  else None.

Definition raise_for_status (r : Response) : M unit :=
  match http_error_msg r with
  | Some msg => raise (Exn HTTPError msg)
  | None => ret tt
  end.

(** [Response.json] *)
Definition json (r : Response) : M pyval :=
  match content r with
  | JsonBody v => ret v
  | BadBody msg => raise (Exn JSONDecodeError msg)
  end.

(** ** The two helpers of the class *)

Definition _send_request (method endpoint : string)
    (payload params : option fields) : M pyval :=
  s <- get_self ;;
  let url := base_url s ++ endpoint in
  response <- requests_request method url payload params ;;
  try_except
    (raise_for_status response ;;
     json response)
    is_RequestException
    (fun e =>
       print (OutText ("Error: " ++ exn_msg e)) ;;
       ret (PyDict [("error", PyStr (exn_msg e))])).

(** [_parse_response] prints and has no [return] statement: its value is
    [None]. *)
Definition _parse_response (response : pyval) : M pyval :=
  try_except
    (print (OutDumps 2 response))
    is_json_JSONDecodeError
    (fun e => print (OutText ("Error decoding JSON: " ++ exn_msg e))) ;;
  ret PyNone.

(** The three lines every method ends with:
    [if self.debug: self._parse_response(response)] and
    [return response]. *)
Definition debug_and_return (response : pyval) : M pyval :=
  s <- get_self ;;
  (if debug s then _parse_response response ;; ret tt else ret tt) ;;
  ret response.

Definition opt_str (o : option string) : field_value :=
  match o with
  | Some s => VStr s
  | None => VNone
  end.

Definition opt_int (o : option Z) : field_value :=
  match o with
  | Some z => VInt z
  | None => VNone
  end.

Definition opt_bool (o : option bool) : field_value :=
  match o with
  | Some b => VBool b
  | None => VNone
  end.

(** ** The endpoint methods, in the order of the source *)

Definition stop_server (server_uuid : string) (disassociate_resources : bool)
  : M pyval :=
  s <- get_self ;;
  let endpoint := "client/stop/single" in
  let payload :=
    [ ("api_key", VStr (api_key s));
      ("api_token", VStr (api_token s));
      ("server", VStr server_uuid);
      ("disassociate_resources",
        VStr (Py.lower (Py.str_bool disassociate_resources))) ] in
  response <- _send_request "POST" endpoint (Some payload) None ;;
  debug_and_return response.

Definition start_server (vm_uuid : string) : M pyval :=
  s <- get_self ;;
  let endpoint := "client/start/single" in
  let payload :=
    [ ("api_key", VStr (api_key s));
      ("api_token", VStr (api_token s));
      ("server", VStr vm_uuid) ] in
  response <- _send_request "POST" endpoint (Some payload) None ;;
  debug_and_return response.

Definition modify_server (server_uuid gpu_model : string)
    (gpu_count ram vcpus storage : Z) : M pyval :=
  s <- get_self ;;
  let endpoint := "client/modify/single" in
  let payload :=
    [ ("api_key", VStr (api_key s));
      ("api_token", VStr (api_token s));
      ("server_id", VStr server_uuid);
      ("gpu_model", VStr gpu_model);
      ("gpu_count", VStr (Py.str_int gpu_count));
      ("ram", VStr (Py.str_int ram));
      ("vcpus", VStr (Py.str_int vcpus));
      ("storage", VStr (Py.str_int storage)) ] in
  response <- _send_request "POST" endpoint (Some payload) None ;;
  debug_and_return response.

Definition delete_server (server_uuid : string) : M pyval :=
  s <- get_self ;;
  let endpoint := "client/delete/single" in
  let payload :=
    [ ("api_key", VStr (api_key s));
      ("api_token", VStr (api_token s));
      ("server", VStr server_uuid) ] in
  response <- _send_request "POST" endpoint (Some payload) None ;;
  debug_and_return response.

Definition list_virtual_machines : M pyval :=
  s <- get_self ;;
  let endpoint := "client/list" in
  let payload :=
    [ ("api_key", VStr (api_key s));
      ("api_token", VStr (api_token s)) ] in
  response <- _send_request "POST" endpoint (Some payload) None ;;
  debug_and_return response.

Definition get_vm_details (server_uuid : string) : M pyval :=
  s <- get_self ;;
  let endpoint := "client/get/single" in
  let payload :=
    [ ("api_key", VStr (api_key s));
      ("api_token", VStr (api_token s));
      ("server", VStr server_uuid) ] in
  response <- _send_request "POST" endpoint (Some payload) None ;;
  debug_and_return response.

Definition soft_validate_new_spot_instance (gpu_count : Z)
    (gpu_model : string) (vcpus : Z) (hostnode : string) (ram storage : Z)
    (price : pyfloat) : M pyval :=
  s <- get_self ;;
  let endpoint := "client/spot/validate/new" in
  let payload :=
    [ ("gpu_count", VStr (Py.str_int gpu_count));
      ("gpu_model", VStr gpu_model);
      ("vcpus", VStr (Py.str_int vcpus));
      ("hostnode", VStr hostnode);
      ("ram", VStr (Py.str_int ram));
      ("storage", VStr (Py.str_int storage));
      ("price", VStr (Py.str_float price));
      ("api_key", VStr (api_key s));
      ("api_token", VStr (api_token s)) ] in
  response <- _send_request "POST" endpoint (Some payload) None ;;
  debug_and_return response.

Definition soft_validate_existing_spot_instance (server : string)
    (price : pyfloat) : M pyval :=
  s <- get_self ;;
  let endpoint := "client/spot/validate/new" in
  let payload :=
    [ ("server", VStr server);
      ("price", VStr (Py.str_float price));
      ("api_key", VStr (api_key s));
      ("api_token", VStr (api_token s)) ] in
  response <- _send_request "POST" endpoint (Some payload) None ;;
  debug_and_return response.

(** The port lists of [deploy_machine] hold port numbers. *)
Definition port_list (ports : list Z) : string :=
  "{" ++ Py.join ", " (map Py.str_int ports) ++ "}".

Definition deploy_machine (name : string) (gpu_count : Z) (gpu_model : string)
    (vcpus ram : Z) (external_ports internal_ports : list Z)
    (hostnode : string) (storage : Z) (operating_system password : string)
    (deployment_type : string)
    (cpu_model location cloudinit_script price_type : option string)
    (price : option pyfloat) : M pyval :=
  s <- get_self ;;
  let endpoint := "client/deploy/single" in
  let payload :=
    [ ("api_key", VStr (api_key s));
      ("api_token", VStr (api_token s));
      ("name", VStr name);
      ("gpu_count", VStr (Py.str_int gpu_count));
      ("gpu_model", VStr gpu_model);
      ("vcpus", VStr (Py.str_int vcpus));
      ("ram", VStr (Py.str_int ram));
      ("external_ports", VStr (port_list external_ports));
      ("internal_ports", VStr (port_list internal_ports));
      ("hostnode", VStr hostnode);
      ("storage", VStr (Py.str_int storage));
      ("operating_system", VStr operating_system);
      ("password", VStr password);
      ("deployment_type", VStr deployment_type);
      ("cpu_model", opt_str cpu_model);
      ("location", opt_str location);
      ("cloudinit_script", opt_str cloudinit_script);
      ("price_type", opt_str price_type);
      ("price", VStr (Py.str_opt_float price)) ] in
  response <- _send_request "POST" endpoint (Some payload) None ;;
  debug_and_return response.

Definition list_available_hostnodes
    (min_vcpus min_ram min_storage min_vram min_gpu_count : option Z)
    (requires_rtx requires_gtx : option bool) : M pyval :=
  s <- get_self ;;
  let endpoint := "client/deploy/hostnodes" in
  let params :=
    [ ("api_key", VStr (api_key s));
      ("api_token", VStr (api_token s));
      ("minvCPUs", opt_int min_vcpus);
      ("minRAM", opt_int min_ram);
      ("minStorage", opt_int min_storage);
      ("minVRAM", opt_int min_vram);
      ("minGPUCount", opt_int min_gpu_count);
      ("requiresRTX", opt_bool requires_rtx);
      ("requiresGTX", opt_bool requires_gtx) ] in
  sent <- _send_request "GET" endpoint None (Some params) ;;
  response <- _parse_response sent ;;
  debug_and_return response.

Definition list_authorizations : M pyval :=
  s <- get_self ;;
  let endpoint := "auth/list" in
  let payload :=
    [ ("api_key", VStr (api_key s));
      ("api_token", VStr (api_token s)) ] in
  response <- _send_request "POST" endpoint (Some payload) None ;;
  debug_and_return response.

Definition retrieve_balance : M pyval :=
  s <- get_self ;;
  let endpoint := "billing/balance" in
  let payload :=
    [ ("api_key", VStr (api_key s));
      ("api_token", VStr (api_token s)) ] in
  response <- _send_request "POST" endpoint (Some payload) None ;;
  debug_and_return response.

Definition test_authorization : M pyval :=
  s <- get_self ;;
  let endpoint := "auth/test" in
  let payload :=
    [ ("api_key", VStr (api_key s));
      ("api_token", VStr (api_token s)) ] in
  response <- _send_request "POST" endpoint (Some payload) None ;;
  debug_and_return response.

Definition get_specific_hostnode (id : string) : M pyval :=
  let endpoint := "client/deploy/hostnodes/" ++ id in
  sent <- _send_request "GET" endpoint None None ;;
  response <- _parse_response sent ;;
  debug_and_return response.

(** ** The public surface as one type

    A [Call] is one method call with its arguments; [invoke] runs it.
    Statements about every public operation quantify over [Call]. *)

Inductive Call :=
| StopServer (server_uuid : string) (disassociate_resources : bool)
| StartServer (vm_uuid : string)
| ModifyServer (server_uuid gpu_model : string)
    (gpu_count ram vcpus storage : Z)
| DeleteServer (server_uuid : string)
| ListVirtualMachines
| GetVmDetails (server_uuid : string)
| SoftValidateNew (gpu_count : Z) (gpu_model : string) (vcpus : Z)
    (hostnode : string) (ram storage : Z) (price : pyfloat)
| SoftValidateExisting (server : string) (price : pyfloat)
| DeployMachine (name : string) (gpu_count : Z) (gpu_model : string)
    (vcpus ram : Z) (external_ports internal_ports : list Z)
    (hostnode : string) (storage : Z) (operating_system password : string)
    (deployment_type : string)
    (cpu_model location cloudinit_script price_type : option string)
    (price : option pyfloat)
| ListAvailableHostnodes
    (min_vcpus min_ram min_storage min_vram min_gpu_count : option Z)
    (requires_rtx requires_gtx : option bool)
| ListAuthorizations
| RetrieveBalance
| TestAuthorization
| GetSpecificHostnode (id : string).

Definition invoke (c : Call) : M pyval :=
  match c with
  | StopServer u d => stop_server u d
  | StartServer u => start_server u
  | ModifyServer u g n r v st => modify_server u g n r v st
  | DeleteServer u => delete_server u
  | ListVirtualMachines => list_virtual_machines
  | GetVmDetails u => get_vm_details u
  | SoftValidateNew n g v h r st p =>
      soft_validate_new_spot_instance n g v h r st p
  | SoftValidateExisting u p => soft_validate_existing_spot_instance u p
  | DeployMachine nm n g v r ext int h st os pw dt cm loc ci pt p =>
      deploy_machine nm n g v r ext int h st os pw dt cm loc ci pt p
  | ListAvailableHostnodes a b c d e rtx gtx =>
      list_available_hostnodes a b c d e rtx gtx
  | ListAuthorizations => list_authorizations
  | RetrieveBalance => retrieve_balance
  | TestAuthorization => test_authorization
  | GetSpecificHostnode i => get_specific_hostnode i
  end.

(** The two methods that route the response through [_parse_response]
    before they return it. *)
Definition through_parse_response (c : Call) : bool :=
  match c with
  | ListAvailableHostnodes _ _ _ _ _ _ _ | GetSpecificHostnode _ => true
  | _ => false
  end.

(** The dictionary of a request in which the credentials travel: the body
    of a POST, the query parameters of a GET. *)
Definition credential_fields (rq : Request) : option fields :=
  if String.eqb (req_method rq) "GET" then req_params rq else req_data rq.

Definition carries (k v : string) (rq : Request) : bool :=
  match credential_fields rq with
  | Some d =>
      match lookup k d with
      | Some (VStr s) => String.eqb s v
      | _ => false
      end
  | None => false
  end.

Definition carries_credentials (s : TensorDockWrapper) (rq : Request) : bool :=
  carries "api_key" (api_key s) rq && carries "api_token" (api_token s) rq.

(** A fresh world around a client. *)
Definition boot (s : TensorDockWrapper) : World :=
  {| self := s; stdout := []; network := [] |}.

Definition set_debug (b : bool) (w : World) : World :=
  {| self := {| base_url := base_url (self w); api_key := api_key (self w);
                api_token := api_token (self w); debug := b |};
     stdout := stdout w; network := network w |}.

(** A server that gives the same answer to every request. *)
Definition always (h : HttpResult) : Server := fun _ => h.

Definition is_2xx (status : Z) : bool := (200 <=? status) && (status <? 300).

Definition logged (rq : Request) (w : World) : World :=
  {| self := self w; stdout := stdout w; network := network w ++ [rq] |}.

Definition printed (o : Output) (w : World) : World :=
  {| self := self w; stdout := stdout w ++ [o]; network := network w |}.

Definition error_dict (msg : string) : pyval :=
  PyDict [("error", PyStr msg)].

(** What [_send_request] comes to, case by case of the server's answer. *)
Definition send_outcome (rq : Request) (srv : Server) (w : World)
  : Result pyval * World :=
  match srv rq with
  | Unreachable e => (Raise e, logged rq w)
  | Answered r =>
      match http_error_msg r with
      | Some msg =>
          (Ok (error_dict msg),
           printed (OutText ("Error: " ++ msg)) (logged rq w))
      | None =>
          match content r with
          | JsonBody v => (Ok v, logged rq w)
          | BadBody msg =>
              (Ok (error_dict msg),
               printed (OutText ("Error: " ++ msg)) (logged rq w))
          end
      end
  end.

(** The request [get_specific_hostnode] hands to the HTTP library. *)
Definition hostnode_request (s : TensorDockWrapper) (id : string) : Request :=
  {| req_method := "GET";
     req_url := base_url s ++ "client/deploy/hostnodes/" ++ id;
     req_data := None;
     req_params := None |}.

(** The words of the specification for a port list: the elements, each one
    after the first preceded by a comma and a space, between braces. *)
Definition comma_space_joined (elements : list string) : string :=
  match elements with
  | [] => ""
  | first :: others =>
      first ++ fold_right (fun e acc => ", " ++ e ++ acc) "" others
  end.

Definition braced (elements : list string) : string :=
  "{" ++ comma_space_joined elements ++ "}".

(** A caller that makes one call after the other on the same instance
    and carries on after an exception. *)
Fixpoint session (calls : list Call) (srv : Server) (w : World) : World :=
  match calls with
  | [] => w
  | c :: rest => session rest srv (snd (invoke c srv w))
  end.

(** The request [test_authorization] hands to the HTTP library. *)
Definition auth_test_request (s : TensorDockWrapper) : Request :=
  {| req_method := "POST";
     req_url := base_url s ++ "auth/test";
     req_data := Some [ ("api_key", VStr (api_key s));
                        ("api_token", VStr (api_token s)) ];
     req_params := None |}.

(** The body [test_authorization] documents for valid credentials. *)
Definition success_true : pyval := PyDict [("success", PyBool true)].

(** ** Reading the transmitted texts back

    The client has no decoder of its own.  The readers below are what a
    receiver of the fields would run; they serve to show that the texts the
    client builds lose nothing. *)

(** A decimal numeral, with an optional minus sign, read as an integer. *)
Definition read_int (s : string) : option Z :=
  option_map Z.of_int (NilZero.int_of_string s).

Fixpoint read_all (tokens : list string) : option (list Z) :=
  match tokens with
  | [] => Some []
  | t :: rest =>
      match read_int t, read_all rest with
      | Some z, Some zs => Some (z :: zs)
      | _, _ => None
      end
  end.

(** The characters of a port text that belong to no number. *)
Definition is_layout (c : ascii) : bool :=
  ((c =? " ") || (c =? "{") || (c =? "}"))%char.

(** A text without commas and layout characters. *)
Fixpoint is_token (s : string) : bool :=
  match s with
  | EmptyString => true
  | String c rest => negb (c =? ",")%char && negb (is_layout c) && is_token rest
  end.

(** The text cut at its commas, braces and spaces dropped: the first piece
    and the pieces after it. *)
Fixpoint split_ports (s : string) : string * list string :=
  match s with
  | EmptyString => ("", [])
  | String c rest =>
      let (tok, toks) := split_ports rest in
      if (c =? ",")%char then ("", tok :: toks)
      else if is_layout c then (tok, toks)
      else (String c tok, toks)
  end.

Definition read_port_list (s : string) : option (list Z) :=
  match split_ports s with
  | (EmptyString, []) => Some []
  | (tok, toks) => read_all (tok :: toks)
  end.

(** ** Names for the operations and for what goes on the wire *)




(** The requests a call hands to the HTTP library, read off a run on a
    fresh world; [invoke_network] shows that they do not depend on the
    server chosen here. *)
Definition issued (s : TensorDockWrapper) (c : Call) : list Request :=
  network (snd (invoke c (always (Unreachable (Exn ConnectionError ""))) (boot s))).

(** A field that is on the wire only when it was given. *)
Definition given (k : string) (o : option string) : list (string * string) :=
  match o with
  | Some s => [(k, s)]
  | None => []
  end.

(** A payload value that is a text, or [None]. *)
Definition text_or_none (v : field_value) : bool :=
  match v with
  | VStr _ | VNone => true
  | VBool _ | VInt _ => false
  end.


(** * Properties *)

(** ** The monad and the two helpers *)

Ltac run :=
  unfold invoke, stop_server, start_server, modify_server, delete_server,
    list_virtual_machines, get_vm_details, soft_validate_new_spot_instance,
    soft_validate_existing_spot_instance, deploy_machine,
    list_available_hostnodes, list_authorizations, retrieve_balance,
    test_authorization, get_specific_hostnode, debug_and_return,
    _send_request, _parse_response, requests_request, raise_for_status,
    json, try_except, print, get_self, bind, ret, raise, always;
  cbn [fst snd self stdout network base_url api_key api_token debug
       set_debug boot].

Lemma _send_request_eq (method endpoint : string) (payload params : option fields)
    (srv : Server) (w : World) :
  _send_request method endpoint payload params srv w
  = send_outcome (mkRequest method (base_url (self w) ++ endpoint) payload params)
      srv w.
Proof.
  unfold send_outcome. run.
  destruct (srv _) as [e | r]; [reflexivity |].
  destruct (http_error_msg r) as [msg |]; cbn; [reflexivity |].
  destruct (content r) as [v | msg]; reflexivity.
Qed.

Lemma _parse_response_eq (response : pyval) (srv : Server) (w : World) :
  _parse_response response srv w = (Ok PyNone, printed (OutDumps 2 response) w).
Proof. reflexivity. Qed.

Lemma send_outcome_self (rq : Request) (srv : Server) (w : World) :
  self (snd (send_outcome rq srv w)) = self w.
Proof.
  unfold send_outcome.
  destruct (srv rq) as [e | r]; [reflexivity |].
  destruct (http_error_msg r); [reflexivity |].
  destruct (content r); reflexivity.
Qed.

Lemma send_outcome_network (rq : Request) (srv : Server) (w : World) :
  network (snd (send_outcome rq srv w)) = (network w ++ [rq])%list.
Proof.
  unfold send_outcome.
  destruct (srv rq) as [e | r]; [reflexivity |].
  destruct (http_error_msg r); [reflexivity |].
  destruct (content r); reflexivity.
Qed.

(** ** [raise_for_status] *)

Lemma http_error_msg_other_status (r : Response) :
  status_code r < 400 \/ 600 <= status_code r -> http_error_msg r = None.
Proof.
  unfold http_error_msg. intros H.
  destruct (400 <=? status_code r) eqn:E4;
    destruct (status_code r <? 500) eqn:E5;
    destruct (500 <=? status_code r) eqn:E6;
    destruct (status_code r <? 600) eqn:E7; cbn; try reflexivity;
    repeat match goal with
    | E : (_ <=? _) = true |- _ => apply Z.leb_le in E
    | E : (_ <=? _) = false |- _ => apply Z.leb_gt in E
    | E : (_ <? _) = true |- _ => apply Z.ltb_lt in E
    | E : (_ <? _) = false |- _ => apply Z.ltb_ge in E
    end; lia.
Qed.

Lemma http_error_msg_2xx (r : Response) :
  is_2xx (status_code r) = true -> http_error_msg r = None.
Proof.
  unfold is_2xx. intros H.
  apply andb_true_iff in H. destruct H as [_ Hhi].
  apply Z.ltb_lt in Hhi.
  apply http_error_msg_other_status. lia.
Qed.

Lemma http_error_msg_error_status (r : Response) :
  400 <= status_code r < 600 ->
  exists msg, http_error_msg r = Some msg /\ msg <> "".
Proof.
  intros [Hlo Hhi]. unfold http_error_msg.
  destruct (status_code r <? 500) eqn:E.
  - assert (H4 : (400 <=? status_code r) = true) by (apply Z.leb_le; lia).
    rewrite H4. cbn. eexists. split; [reflexivity |].
    destruct (Py.str_int (status_code r)); discriminate.
  - apply Z.ltb_ge in E.
    rewrite andb_false_r.
    assert (H5 : (500 <=? status_code r) = true) by (apply Z.leb_le; lia).
    assert (H6 : (status_code r <? 600) = true) by (apply Z.ltb_lt; lia).
    rewrite H5, H6. cbn. eexists. split; [reflexivity |].
    destruct (Py.str_int (status_code r)); discriminate.
Qed.

(** ** What every operation does *)

Ltac answer_cases srv :=
  destruct (srv _) as [?e | ?r]; cbn;
  [| destruct (http_error_msg _) as [?msg |]; cbn;
     [| destruct (content _) as [?v | ?msg]; cbn ] ].

(** Every operation issues one request, whatever the server does. *)
Lemma invoke_one_request (c : Call) (srv : Server) (w : World) :
  exists rq, network (snd (invoke c srv w)) = (network w ++ [rq])%list.
Proof.
  destruct c; run; eexists;
    answer_cases srv; try destruct (debug (self w)); reflexivity.
Qed.

(** An operation that returns what [_send_request] gave it returns the
    decoded body of a 2xx response. *)
Lemma direct_return_decoded_json (c : Call) (w : World)
    (status : Z) (why where_ : string) (v : pyval) :
  through_parse_response c = false ->
  is_2xx status = true ->
  fst (invoke c (always (Answered (mkResponse status why where_ (JsonBody v)))) w)
  = Ok v.
Proof.
  intros Hc H2.
  pose proof (http_error_msg_2xx (mkResponse status why where_ (JsonBody v)) H2) as Hm.
  destruct c; try discriminate Hc; run; rewrite Hm; cbn;
    destruct (debug (self w)); reflexivity.
Qed.

(** The same operations turn a 4xx or 5xx status into an error
    dictionary with a message. *)
Lemma direct_return_error_dict (c : Call) (w : World) (r : Response) :
  through_parse_response c = false ->
  400 <= status_code r < 600 ->
  exists msg, msg <> "" /\
    fst (invoke c (always (Answered r)) w) = Ok (error_dict msg).
Proof.
  intros Hc Hs.
  destruct (http_error_msg_error_status r Hs) as (msg & Hm & Hne).
  exists msg. split; [exact Hne |].
  destruct c; try discriminate Hc; run; rewrite Hm; cbn;
    destruct (debug (self w)); reflexivity.
Qed.

(** Every operation but [get_specific_hostnode] sends the stored key and
    token, in the body of a POST and in the query of a GET. *)
Lemma credentials_attached (c : Call) (srv : Server) (w : World) :
  (forall id, c <> GetSpecificHostnode id) ->
  exists rq,
    network (snd (invoke c srv w)) = (network w ++ [rq])%list /\
    carries_credentials (self w) rq = true.
Proof.
  intros Hc.
  destruct c; try (exfalso; eapply Hc; reflexivity);
    run; eexists; (split;
      [ answer_cases srv; try destruct (debug (self w)); reflexivity
      | unfold carries_credentials, carries; cbn;
        rewrite !String.eqb_refl; reflexivity ]).
Qed.

(** [stop_server] writes its flag in lower case. *)
Lemma stop_server_flag (server_uuid : string) (flag : bool)
    (srv : Server) (w : World) :
  exists rq payload,
    network (snd (stop_server server_uuid flag srv w)) = (network w ++ [rq])%list /\
    req_data rq = Some payload /\
    lookup "disassociate_resources" payload
    = Some (VStr (if flag then "true" else "false")).
Proof.
  run. eexists. eexists. split; [| split].
  - answer_cases srv; try destruct (debug (self w)); reflexivity.
  - reflexivity.
  - destruct flag; reflexivity.
Qed.

(** [str.join] with a comma and a space gives the words of the
    specification. *)
Lemma join_comma_space (elements : list string) :
  Py.join ", " elements = comma_space_joined elements.
Proof.
  unfold Py.join.
  induction elements as [| x rest IH]; [reflexivity |].
  destruct rest as [| y rest'].
  - cbn. clear IH. induction x as [| ch x IHx]; cbn; [reflexivity | now rewrite <- IHx].
  - change (String.concat ", " (x :: y :: rest'))
      with (x ++ ", " ++ String.concat ", " (y :: rest')).
    rewrite IH. reflexivity.
Qed.

Lemma port_list_braced (ports : list Z) :
  port_list ports = braced (map Py.str_int ports).
Proof. unfold port_list, braced. now rewrite join_comma_space. Qed.

Example braced_80_443 : braced ["80"; "443"] = "{80, 443}".
Proof. reflexivity. Qed.

Example port_list_empty : port_list [] = "{}".
Proof. reflexivity. Qed.

Example str_int_samples :
  Py.str_int 0 = "0" /\ Py.str_int 443 = "443" /\ Py.str_int (-5) = "-5".
Proof. repeat split. Qed.

Example lower_samples :
  Py.lower (Py.str_bool true) = "true" /\ Py.lower (Py.str_bool false) = "false".
Proof. split; reflexivity. Qed.

(** What the HTTP library writes for the query of
    [list_available_hostnodes(min_ram=8, requires_rtx=True)]: the filters
    left out are dropped, the flag goes out with a capital letter. *)
Example hostnode_query_on_the_wire :
  encode [ ("api_key", VStr "API_KEY"); ("api_token", VStr "API_TOKEN");
           ("minvCPUs", opt_int None); ("minRAM", opt_int (Some 8));
           ("minStorage", opt_int None); ("minVRAM", opt_int None);
           ("minGPUCount", opt_int None);
           ("requiresRTX", opt_bool (Some true));
           ("requiresGTX", opt_bool None) ]
  = [ ("api_key", "API_KEY"); ("api_token", "API_TOKEN");
      ("minRAM", "8"); ("requiresRTX", "True") ].
Proof. reflexivity. Qed.

(** A whole call, run: [test_authorization] with [debug] set, against a
    server that accepts the credentials. *)
Example test_authorization_run :
  test_authorization
    (always (Answered (mkResponse 200 "OK"
       "https://marketplace.tensordock.com/api/v0/auth/test"
       (JsonBody success_true))))
    (boot (__init__ "API_KEY" "API_TOKEN" true))
  = (Ok success_true,
     {| self := __init__ "API_KEY" "API_TOKEN" true;
        stdout := [OutDumps 2 success_true];
        network := [auth_test_request (__init__ "API_KEY" "API_TOKEN" true)] |}).
Proof. reflexivity. Qed.

Lemma get_specific_hostnode_network (id : string) (srv : Server) (w : World) :
  network (snd (get_specific_hostnode id srv w))
  = (network w ++ [hostnode_request (self w) id])%list.
Proof.
  unfold hostnode_request. run.
  answer_cases srv; try destruct (debug (self w)); reflexivity.
Qed.

Lemma invoke_self (c : Call) (srv : Server) (w : World) :
  self (snd (invoke c srv w)) = self w.
Proof.
  destruct c; run;
    answer_cases srv; try destruct (debug (self w)); reflexivity.
Qed.

(** ** The claims *)

(** C1.  The claim is that every operation returns the decoded JSON of a
    successful response, the two hostnode getters in particular.  The two
    getters assign the value of [_parse_response], which is [None], to
    [response]: against a server that answers 200 with any JSON body, both
    return [None]. *)
Theorem hostnode_getters_return_None (w : World) (why where_ : string) (v : pyval)
    (id : string) (min_vcpus min_ram min_storage min_vram min_gpu_count : option Z)
    (requires_rtx requires_gtx : option bool) :
  fst (get_specific_hostnode id
         (always (Answered (mkResponse 200 why where_ (JsonBody v)))) w)
  = Ok PyNone /\
  fst (list_available_hostnodes min_vcpus min_ram min_storage min_vram
         min_gpu_count requires_rtx requires_gtx
         (always (Answered (mkResponse 200 why where_ (JsonBody v)))) w)
  = Ok PyNone.
Proof.
  split; run; cbn; destruct (debug (self w)); reflexivity.
Qed.

(** C2.  The claim is that every request carries the stored key and
    token, the one of [get_specific_hostnode] in particular.  That method
    passes neither a payload nor query parameters: its one request carries
    no credentials. *)
Theorem get_specific_hostnode_no_credentials (id : string) (srv : Server)
    (w : World) :
  exists rq,
    network (snd (get_specific_hostnode id srv w)) = (network w ++ [rq])%list /\
    req_data rq = None /\ req_params rq = None /\
    carries_credentials (self w) rq = false.
Proof.
  exists (hostnode_request (self w) id).
  split; [apply get_specific_hostnode_network |].
  repeat split.
Qed.

(** C3.  The claim is that a transport failure or an error status comes
    back as an error dictionary and is never raised.  [requests.request]
    is called before the [try] block of [_send_request]: when it raises,
    every operation raises the same exception to its caller.  And on a
    status 500 the two hostnode getters return [None], not the error
    dictionary, which [_parse_response] has swallowed. *)
Theorem transport_failure_propagates (c : Call) (w : World) (e : exn)
    (why where_ : string) (body : Body) (id : string) :
  fst (invoke c (always (Unreachable e)) w) = Raise e /\
  fst (get_specific_hostnode id
         (always (Answered (mkResponse 500 why where_ body))) w)
  = Ok PyNone.
Proof.
  split.
  - destruct c; reflexivity.
  - run. cbn. destruct (debug (self w)); reflexivity.
Qed.

(** C4.  The claim is that every boolean flag is transmitted as the text
    true or false in lower case.  [list_available_hostnodes] places
    [requires_rtx] and [requires_gtx] in the query parameters as the
    Python booleans they are, and the HTTP library writes such a value
    with a capital letter. *)
Theorem hostnode_flags_not_lowercased
    (min_vcpus min_ram min_storage min_vram min_gpu_count : option Z)
    (requires_rtx requires_gtx : bool) (srv : Server) (w : World) :
  exists rq params,
    network (snd (list_available_hostnodes min_vcpus min_ram min_storage
                    min_vram min_gpu_count (Some requires_rtx)
                    (Some requires_gtx) srv w))
    = (network w ++ [rq])%list /\
    req_params rq = Some params /\
    lookup "requiresRTX" params = Some (VBool requires_rtx) /\
    lookup "requiresGTX" params = Some (VBool requires_gtx) /\
    wire_value (VBool requires_rtx)
    = Some (if requires_rtx then "True" else "False") /\
    wire_value (VBool requires_gtx)
    = Some (if requires_gtx then "True" else "False").
Proof.
  run. eexists. eexists. split.
  - answer_cases srv; try destruct (debug (self w)); reflexivity.
  - repeat (split; [reflexivity |]). reflexivity.
Qed.

(** C5.  For every pair of port lists, the [external_ports] and
    [internal_ports] fields of the payload [deploy_machine] sends are an
    opening brace, the port numbers joined by a comma and a space, and a
    closing brace; the list 80, 443 becomes the text {80, 443}. *)
Theorem deploy_machine_port_lists (name : string) (gpu_count : Z)
    (gpu_model : string) (vcpus ram : Z) (external_ports internal_ports : list Z)
    (hostnode : string) (storage : Z) (operating_system password : string)
    (deployment_type : string)
    (cpu_model location cloudinit_script price_type : option string)
    (price : option pyfloat) (srv : Server) (w : World) :
  (exists rq payload,
    network (snd (deploy_machine name gpu_count gpu_model vcpus ram
                    external_ports internal_ports hostnode storage
                    operating_system password deployment_type cpu_model
                    location cloudinit_script price_type price srv w))
    = (network w ++ [rq])%list /\
    req_data rq = Some payload /\
    lookup "external_ports" payload
    = Some (VStr (braced (map Py.str_int external_ports))) /\
    lookup "internal_ports" payload
    = Some (VStr (braced (map Py.str_int internal_ports)))) /\
  port_list [80; 443] = "{80, 443}".
Proof.
  split; [| reflexivity].
  run. eexists. eexists. split.
  - answer_cases srv; try destruct (debug (self w)); reflexivity.
  - split; [reflexivity |].
    rewrite !join_comma_space. split; reflexivity.
Qed.

(** C6.  For every operation, every input and every server, the value
    returned (or the exception raised) is the same with [debug] set and
    with [debug] cleared; so are the requests issued, and the console of
    the run with [debug] set is the console of the other run followed by
    the extra pretty-print. *)
Theorem debug_does_not_change_result (c : Call) (srv : Server) (w : World) :
  fst (invoke c srv (set_debug true w)) = fst (invoke c srv (set_debug false w)) /\
  network (snd (invoke c srv (set_debug true w)))
  = network (snd (invoke c srv (set_debug false w))) /\
  exists extra,
    stdout (snd (invoke c srv (set_debug true w)))
    = (stdout (snd (invoke c srv (set_debug false w))) ++ extra)%list.
Proof.
  destruct c; run; answer_cases srv;
    (split; [reflexivity | split; [reflexivity |]]);
    first [ exists []; now rewrite app_nil_r | eexists; reflexivity ].
Qed.

(** C7.  For every hostnode id, [get_specific_hostnode] issues exactly
    one request: a GET to the base URL followed by
    client/deploy/hostnodes/ and the id, without a body; for the id
    abc-123 of a freshly constructed client that is
    https://marketplace.tensordock.com/api/v0/client/deploy/hostnodes/abc-123. *)
Theorem get_specific_hostnode_request (id : string) (srv : Server) (w : World) :
  network (snd (get_specific_hostnode id srv w))
  = (network w ++
      [ {| req_method := "GET";
           req_url := base_url (self w) ++ "client/deploy/hostnodes/" ++ id;
           req_data := None;
           req_params := None |} ])%list /\
  forall key token dbg,
    network (snd (get_specific_hostnode "abc-123" srv
                    (boot (__init__ key token dbg))))
    = [ {| req_method := "GET";
           req_url := "https://marketplace.tensordock.com/api/v0/client/deploy/hostnodes/abc-123";
           req_data := None;
           req_params := None |} ].
Proof.
  split; [apply get_specific_hostnode_network |].
  intros key token dbg. now rewrite get_specific_hostnode_network.
Qed.

(** C8.  As stated, for every server response, the claim fails: a
    response with status 500 is turned into an error dictionary even when
    its body is the object with success set to true. *)
Lemma test_authorization_status_500 :
  fst (test_authorization
         (always (Answered (mkResponse 500 "Internal Server Error"
            "https://marketplace.tensordock.com/api/v0/auth/test"
            (JsonBody success_true))))
         (boot (__init__ "API_KEY" "API_TOKEN" false)))
  <> Ok success_true.
Proof. cbn. discriminate. Qed.

(** C8, amended.  Whatever JSON value the server answers with,
    [test_authorization] returns it unchanged when the status is not an
    error status (not from 400 to 599; every 2xx status in particular). *)
Theorem test_authorization_returns_response (srv : Server) (w : World)
    (r : Response) (v : pyval) :
  srv (auth_test_request (self w)) = Answered r ->
  status_code r < 400 \/ 600 <= status_code r ->
  content r = JsonBody v ->
  fst (test_authorization srv w) = Ok v.
Proof.
  intros Hsrv Hstatus Hbody. unfold auth_test_request in Hsrv.
  run. rewrite Hsrv. cbn.
  rewrite (http_error_msg_other_status r Hstatus), Hbody. cbn.
  destruct (debug (self w)); reflexivity.
Qed.

Lemma test_authorization_success_true :
  fst (test_authorization
         (always (Answered (mkResponse 200 "OK"
            "https://marketplace.tensordock.com/api/v0/auth/test"
            (JsonBody success_true))))
         (boot (__init__ "API_KEY" "API_TOKEN" true)))
  = Ok success_true.
Proof.
  apply (test_authorization_returns_response _ _
           (mkResponse 200 "OK"
              "https://marketplace.tensordock.com/api/v0/auth/test"
              (JsonBody success_true)) success_true).
  - reflexivity.
  - left. cbn. lia.
  - reflexivity.
Defined.

(** C9.  No operation assigns to an attribute of the client: after a
    call, and after any sequence of calls, the instance holds the base
    URL, key, token and debug flag it held before. *)
Theorem client_state_unchanged (calls : list Call) (srv : Server) (w : World) :
  (forall c, self (snd (invoke c srv w)) = self w) /\
  self (session calls srv w) = self w.
Proof.
  split; [intros c; apply invoke_self |].
  revert w. induction calls as [| c rest IH]; intros w; cbn.
  - reflexivity.
  - rewrite IH. apply invoke_self.
Qed.

(** C10.  With the optional arguments left out, the payload of
    [deploy_machine] has the text None under price, and [None] itself
    under cpu_model, location, cloudinit_script and price_type. *)
Theorem deploy_machine_omitted_optionals (name : string) (gpu_count : Z)
    (gpu_model : string) (vcpus ram : Z) (external_ports internal_ports : list Z)
    (hostnode : string) (storage : Z) (operating_system password : string)
    (deployment_type : string) (srv : Server) (w : World) :
  exists rq payload,
    network (snd (deploy_machine name gpu_count gpu_model vcpus ram
                    external_ports internal_ports hostnode storage
                    operating_system password deployment_type
                    None None None None None srv w))
    = (network w ++ [rq])%list /\
    req_data rq = Some payload /\
    lookup "price" payload = Some (VStr "None") /\
    lookup "cpu_model" payload = Some VNone /\
    lookup "location" payload = Some VNone /\
    lookup "cloudinit_script" payload = Some VNone /\
    lookup "price_type" payload = Some VNone.
Proof.
  run. eexists. eexists. split.
  - answer_cases srv; try destruct (debug (self w)); reflexivity.
  - repeat (split; [reflexivity |]). reflexivity.
Qed.

(** * Beyond the claims *)

(** ** Decimal numerals and port lists *)

Lemma append_nil_r (s : string) : s ++ "" = s.
Proof. induction s as [| c s IH]; cbn; [reflexivity | now rewrite IH]. Qed.

Lemma append_assoc (a b c : string) : (a ++ b) ++ c = a ++ (b ++ c).
Proof. induction a as [| ch a IH]; cbn; [reflexivity | now rewrite IH]. Qed.


Lemma read_int_str_int (z : Z) : read_int (Py.str_int z) = Some z.
Proof.
  unfold read_int, Py.str_int.
  rewrite NilZero.isi.
  - cbn. now rewrite DecimalZ.of_to.
  - destruct z; cbn; try discriminate.
    intros H. injection H as H. now apply Unsigned.to_uint_nonnil in H.
  - destruct z; cbn; try discriminate.
    intros H. injection H as H. now apply Unsigned.to_uint_nonnil in H.
Qed.

Lemma read_all_str_int (ports : list Z) :
  read_all (map Py.str_int ports) = Some ports.
Proof.
  induction ports as [| z rest IH]; cbn; [reflexivity |].
  now rewrite read_int_str_int, IH.
Qed.

Lemma is_token_uint (d : Decimal.uint) :
  is_token (NilEmpty.string_of_uint d) = true.
Proof. induction d; cbn; auto. Qed.

Lemma is_token_str_int (z : Z) : is_token (Py.str_int z) = true.
Proof.
  unfold Py.str_int, NilZero.string_of_int, NilZero.string_of_uint.
  destruct (Z.to_int z) as [d | d]; destruct d; cbn;
    try reflexivity; apply is_token_uint.
Qed.

Lemma split_ports_token (s rest : string) :
  is_token s = true ->
  split_ports (s ++ rest)
  = (s ++ fst (split_ports rest), snd (split_ports rest)).
Proof.
  induction s as [| c s IH]; cbn; intros H.
  - now destruct (split_ports rest).
  - apply andb_true_iff in H. destruct H as [H Hs].
    apply andb_true_iff in H. destruct H as [Hc Hl].
    apply negb_true_iff in Hc, Hl.
    rewrite (IH Hs), Hc, Hl. reflexivity.
Qed.

Lemma split_ports_separator (s : string) :
  split_ports (", " ++ s) = ("", fst (split_ports s) :: snd (split_ports s)).
Proof. cbn. now destruct (split_ports s). Qed.

Lemma split_ports_join (x : string) (others : list string) :
  is_token x = true ->
  Forall (fun t => is_token t = true) others ->
  split_ports (Py.join ", " (x :: others) ++ "}") = (x, others).
Proof.
  revert x. induction others as [| y rest IH]; intros x Hx Hall.
  - cbn. rewrite (split_ports_token x "}" Hx). cbn. now rewrite append_nil_r.
  - unfold Py.join in *.
    change (String.concat ", " (x :: y :: rest))
      with (x ++ ", " ++ String.concat ", " (y :: rest)).
    rewrite append_assoc, (split_ports_token _ _ Hx).
    inversion Hall as [| ? ? Hy Hrest]; subst.
    change ((", " ++ String.concat ", " (y :: rest)) ++ "}")
      with (", " ++ (String.concat ", " (y :: rest) ++ "}")).
    rewrite split_ports_separator, (IH y Hy Hrest).
    cbn [fst snd]. now rewrite append_nil_r.
Qed.

Lemma split_ports_brace (s : string) : split_ports ("{" ++ s) = split_ports s.
Proof. cbn. now destruct (split_ports s). Qed.

Lemma split_ports_port_list (z : Z) (rest : list Z) :
  split_ports (port_list (z :: rest)) = (Py.str_int z, map Py.str_int rest).
Proof.
  unfold port_list. rewrite split_ports_brace.
  apply (split_ports_join (Py.str_int z) (map Py.str_int rest)).
  - apply is_token_str_int.
  - apply Forall_forall. intros t Ht. apply in_map_iff in Ht.
    destruct Ht as (z' & <- & _). apply is_token_str_int.
Qed.

(** X1.  The text [deploy_machine] builds for a port list determines the
    list: cut at the commas and read number by number, it gives the ports
    back, the empty list and negative numbers included. *)
Theorem read_port_list_port_list (ports : list Z) :
  read_port_list (port_list ports) = Some ports.
Proof.
  destruct ports as [| z rest]; [reflexivity |].
  unfold read_port_list. rewrite split_ports_port_list.
  pose proof (read_int_str_int z) as Hz.
  destruct (Py.str_int z) as [| c t] eqn:E; [discriminate Hz |].
  rewrite <- E. apply (read_all_str_int (z :: rest)).
Qed.

(** ** One request per call *)

Lemma invoke_network (c : Call) (srv : Server) (w : World) :
  network (snd (invoke c srv w)) = (network w ++ issued (self w) c)%list.
Proof.
  unfold issued.
  destruct c; run;
    answer_cases srv; try destruct (debug (self w)); reflexivity.
Qed.



(** ** The twelve operations that return what [_send_request] gave them *)

(** X3.  When the status is not an error status and the body is JSON, such
    an operation returns the decoded body; it prints nothing with [debug]
    cleared and the pretty-printed body, once, with [debug] set. *)
Theorem direct_return_passes_body (c : Call) (w : World) (r : Response)
    (v : pyval) :
  through_parse_response c = false ->
  status_code r < 400 \/ 600 <= status_code r ->
  content r = JsonBody v ->
  fst (invoke c (always (Answered r)) w) = Ok v /\
  stdout (snd (invoke c (always (Answered r)) w))
  = (stdout w ++ (if debug (self w) then [OutDumps 2 v] else []))%list.
Proof.
  intros Hc Hstatus Hbody.
  pose proof (http_error_msg_other_status r Hstatus) as Hm.
  destruct c; try discriminate Hc; run; rewrite Hm, Hbody; cbn;
    destruct (debug (self w)); cbn; rewrite ?app_nil_r; split; reflexivity.
Qed.

Lemma direct_return_passes_body_witness :
  fst (invoke (StartServer "vm-1")
         (always (Answered (mkResponse 200 "OK" "u" (JsonBody success_true))))
         (boot (__init__ "API_KEY" "API_TOKEN" false)))
  = Ok success_true /\
  stdout (snd (invoke (StartServer "vm-1")
         (always (Answered (mkResponse 200 "OK" "u" (JsonBody success_true))))
         (boot (__init__ "API_KEY" "API_TOKEN" false))))
  = [].
Proof.
  apply (direct_return_passes_body (StartServer "vm-1")
           (boot (__init__ "API_KEY" "API_TOKEN" false))
           (mkResponse 200 "OK" "u" (JsonBody success_true)) success_true).
  - reflexivity.
  - left. cbn. lia.
  - reflexivity.
Defined.

(** X4.  On a 4xx or 5xx status such an operation raises nothing: it
    returns a dictionary with the one key error and a message that is not
    empty, and it prints the message after the word Error even when
    [debug] is cleared; with [debug] set the dictionary is printed too. *)
Theorem error_status_reported (c : Call) (w : World) (r : Response) :
  through_parse_response c = false ->
  400 <= status_code r < 600 ->
  exists msg,
    msg <> "" /\
    fst (invoke c (always (Answered r)) w) = Ok (error_dict msg) /\
    stdout (snd (invoke c (always (Answered r)) w))
    = (stdout w ++ OutText ("Error: " ++ msg)
         :: (if debug (self w) then [OutDumps 2 (error_dict msg)] else []))%list.
Proof.
  intros Hc Hs.
  destruct (http_error_msg_error_status r Hs) as (msg & Hm & Hne).
  exists msg. split; [exact Hne |].
  destruct c; try discriminate Hc; run; rewrite Hm; cbn;
    destruct (debug (self w)); cbn; rewrite <- ?app_assoc; split; reflexivity.
Qed.

Lemma error_status_reported_witness :
  exists msg,
    msg <> "" /\
    fst (invoke (DeleteServer "vm-1")
           (always (Answered (mkResponse 404 "Not Found" "u" (BadBody "x"))))
           (boot (__init__ "API_KEY" "API_TOKEN" false)))
    = Ok (error_dict msg) /\
    stdout (snd (invoke (DeleteServer "vm-1")
           (always (Answered (mkResponse 404 "Not Found" "u" (BadBody "x"))))
           (boot (__init__ "API_KEY" "API_TOKEN" false))))
    = ([] ++ OutText ("Error: " ++ msg) :: [])%list.
Proof.
  apply (error_status_reported (DeleteServer "vm-1")
           (boot (__init__ "API_KEY" "API_TOKEN" false))
           (mkResponse 404 "Not Found" "u" (BadBody "x"))).
  - reflexivity.
  - cbn. lia.
Defined.

Ltac split_options :=
  repeat match goal with
         | o : option _ |- _ => destruct o
         end.

(** X5.  Such an operation sends one POST without query parameters; the
    stored key and token are fields of its body, so they are not part of
    the URL. *)
Theorem post_request_shape (c : Call) (srv : Server) (w : World) :
  through_parse_response c = false ->
  exists rq payload,
    network (snd (invoke c srv w)) = (network w ++ [rq])%list /\
    req_method rq = "POST" /\
    req_params rq = None /\
    req_data rq = Some payload /\
    lookup "api_key" payload = Some (VStr (api_key (self w))) /\
    lookup "api_token" payload = Some (VStr (api_token (self w))).
Proof.
  intros Hc. rewrite invoke_network.
  destruct c; try discriminate Hc; unfold issued; run;
    eexists; eexists; (split; [reflexivity |]);
    repeat (split; [reflexivity |]); reflexivity.
Qed.

Lemma post_request_shape_witness :
  exists rq payload,
    network (snd (invoke RetrieveBalance (always (Unreachable (Exn Timeout "")))
                    (boot (__init__ "API_KEY" "API_TOKEN" false))))
    = ([] ++ [rq])%list /\
    req_method rq = "POST" /\
    req_params rq = None /\
    req_data rq = Some payload /\
    lookup "api_key" payload = Some (VStr "API_KEY") /\
    lookup "api_token" payload = Some (VStr "API_TOKEN").
Proof.
  apply (post_request_shape RetrieveBalance
           (always (Unreachable (Exn Timeout "")))
           (boot (__init__ "API_KEY" "API_TOKEN" false))).
  reflexivity.
Defined.

(** X6.  No body holds a raw number or boolean: every value of a POST
    payload is a text, or [None] for an optional of [deploy_machine] that
    was left out. *)
Theorem post_payload_values_are_text (c : Call) (srv : Server) (w : World) :
  through_parse_response c = false ->
  exists rq payload,
    network (snd (invoke c srv w)) = (network w ++ [rq])%list /\
    req_data rq = Some payload /\
    forallb text_or_none (map snd payload) = true.
Proof.
  intros Hc. rewrite invoke_network.
  destruct c; try discriminate Hc; split_options; unfold issued; run;
    eexists; eexists; (split; [reflexivity |]); split; reflexivity.
Qed.

Lemma post_payload_values_are_text_witness :
  exists rq payload,
    network (snd (invoke (ModifyServer "vm-1" "rtxa6000-pcie-48gb" 2 64 16 500)
                    (always (Unreachable (Exn Timeout "")))
                    (boot (__init__ "API_KEY" "API_TOKEN" false))))
    = ([] ++ [rq])%list /\
    req_data rq = Some payload /\
    forallb text_or_none (map snd payload) = true.
Proof.
  apply (post_payload_values_are_text
           (ModifyServer "vm-1" "rtxa6000-pcie-48gb" 2 64 16 500)
           (always (Unreachable (Exn Timeout "")))
           (boot (__init__ "API_KEY" "API_TOKEN" false))).
  reflexivity.
Defined.

(** ** What goes on the wire *)

(** X7.  The query of [list_available_hostnodes] is the key, the token
    and the filters that were given, in the order of the source; a filter
    left at [None] is not sent, a number goes out in decimal and a flag as
    the text Python gives a boolean. *)
Theorem hostnodes_query_on_the_wire
    (min_vcpus min_ram min_storage min_vram min_gpu_count : option Z)
    (requires_rtx requires_gtx : option bool) (srv : Server) (w : World) :
  exists rq params,
    network (snd (list_available_hostnodes min_vcpus min_ram min_storage
                    min_vram min_gpu_count requires_rtx requires_gtx srv w))
    = (network w ++ [rq])%list /\
    req_method rq = "GET" /\
    req_data rq = None /\
    req_params rq = Some params /\
    encode params
    = (("api_key", api_key (self w)) :: ("api_token", api_token (self w))
       :: given "minvCPUs" (option_map Py.str_int min_vcpus)
       ++ given "minRAM" (option_map Py.str_int min_ram)
       ++ given "minStorage" (option_map Py.str_int min_storage)
       ++ given "minVRAM" (option_map Py.str_int min_vram)
       ++ given "minGPUCount" (option_map Py.str_int min_gpu_count)
       ++ given "requiresRTX" (option_map Py.str_bool requires_rtx)
       ++ given "requiresGTX" (option_map Py.str_bool requires_gtx))%list.
Proof.
  change (list_available_hostnodes min_vcpus min_ram min_storage min_vram
            min_gpu_count requires_rtx requires_gtx)
    with (invoke (ListAvailableHostnodes min_vcpus min_ram min_storage
                    min_vram min_gpu_count requires_rtx requires_gtx)).
  rewrite invoke_network. unfold issued. run.
  eexists. eexists. split; [reflexivity |].
  repeat (split; [reflexivity |]).
  split_options; reflexivity.
Qed.

(** X8.  The form [deploy_machine] posts has the fourteen fields that are
    always there, then those of cpu_model, location, cloudinit_script and
    price_type that were given, then price: a price is sent in every case,
    as the text None when none was given. *)
Theorem deploy_machine_on_the_wire (name : string) (gpu_count : Z)
    (gpu_model : string) (vcpus ram : Z) (external_ports internal_ports : list Z)
    (hostnode : string) (storage : Z) (operating_system password : string)
    (deployment_type : string)
    (cpu_model location cloudinit_script price_type : option string)
    (price : option pyfloat) (srv : Server) (w : World) :
  exists rq payload,
    network (snd (deploy_machine name gpu_count gpu_model vcpus ram
                    external_ports internal_ports hostnode storage
                    operating_system password deployment_type cpu_model
                    location cloudinit_script price_type price srv w))
    = (network w ++ [rq])%list /\
    req_data rq = Some payload /\
    encode payload
    = ([ ("api_key", api_key (self w));
         ("api_token", api_token (self w));
         ("name", name);
         ("gpu_count", Py.str_int gpu_count);
         ("gpu_model", gpu_model);
         ("vcpus", Py.str_int vcpus);
         ("ram", Py.str_int ram);
         ("external_ports", port_list external_ports);
         ("internal_ports", port_list internal_ports);
         ("hostnode", hostnode);
         ("storage", Py.str_int storage);
         ("operating_system", operating_system);
         ("password", password);
         ("deployment_type", deployment_type) ]
       ++ given "cpu_model" cpu_model
       ++ given "location" location
       ++ given "cloudinit_script" cloudinit_script
       ++ given "price_type" price_type
       ++ [ ("price", match price with
                      | Some p => float_repr p
                      | None => "None"
                      end) ])%list.
Proof.
  change (deploy_machine name gpu_count gpu_model vcpus ram external_ports
            internal_ports hostnode storage operating_system password
            deployment_type cpu_model location cloudinit_script price_type
            price)
    with (invoke (DeployMachine name gpu_count gpu_model vcpus ram
                    external_ports internal_ports hostnode storage
                    operating_system password deployment_type cpu_model
                    location cloudinit_script price_type price)).
  rewrite invoke_network. unfold issued. run.
  eexists. eexists. split; [reflexivity |]. split; [reflexivity |].
  split_options; reflexivity.
Qed.

(** X9.  [stop_server] posts four fields: key, token, server and
    disassociate_resources, the last one as the text true or false in
    lower case. *)
Theorem stop_server_on_the_wire (server_uuid : string)
    (disassociate_resources : bool) (srv : Server) (w : World) :
  exists rq payload,
    network (snd (stop_server server_uuid disassociate_resources srv w))
    = (network w ++ [rq])%list /\
    req_url rq = base_url (self w) ++ "client/stop/single" /\
    req_data rq = Some payload /\
    encode payload
    = [ ("api_key", api_key (self w));
        ("api_token", api_token (self w));
        ("server", server_uuid);
        ("disassociate_resources",
          if disassociate_resources then "true" else "false") ].
Proof.
  change (stop_server server_uuid disassociate_resources)
    with (invoke (StopServer server_uuid disassociate_resources)).
  rewrite invoke_network. unfold issued. run.
  eexists. eexists. split; [reflexivity |].
  repeat (split; [reflexivity |]).
  destruct disassociate_resources; reflexivity.
Qed.


(** ** Which operation a URL belongs to *)



(** X12.  [soft_validate_existing_spot_instance] posts to the URL of
    [soft_validate_new_spot_instance], client/spot/validate/new; the two
    requests differ in their fields only: the one names a server and no
    hostnode, the other a hostnode and no server. *)
Theorem spot_validations_share_endpoint (gpu_count : Z) (gpu_model : string)
    (vcpus : Z) (hostnode : string) (ram storage : Z) (price : pyfloat)
    (server : string) (price' : pyfloat) (srv srv' : Server) (w : World) :
  exists rq rq' payload payload',
    network (snd (soft_validate_new_spot_instance gpu_count gpu_model vcpus
                    hostnode ram storage price srv w))
    = (network w ++ [rq])%list /\
    network (snd (soft_validate_existing_spot_instance server price' srv' w))
    = (network w ++ [rq'])%list /\
    req_method rq = req_method rq' /\
    req_url rq = base_url (self w) ++ "client/spot/validate/new" /\
    req_url rq' = base_url (self w) ++ "client/spot/validate/new" /\
    req_data rq = Some payload /\
    req_data rq' = Some payload' /\
    lookup "hostnode" payload = Some (VStr hostnode) /\
    lookup "server" payload = None /\
    lookup "server" payload' = Some (VStr server) /\
    lookup "hostnode" payload' = None.
Proof.
  change (soft_validate_new_spot_instance gpu_count gpu_model vcpus hostnode
            ram storage price)
    with (invoke (SoftValidateNew gpu_count gpu_model vcpus hostnode ram
                    storage price)).
  change (soft_validate_existing_spot_instance server price')
    with (invoke (SoftValidateExisting server price')).
  rewrite !invoke_network. unfold issued. run.
  do 4 eexists. split; [reflexivity |]. split; [reflexivity |].
  repeat (split; [reflexivity |]). reflexivity.
Qed.

(** ** The console *)

(** X13.  The two hostnode getters print the decoded body even when
    [debug] is cleared, since they pass it through [_parse_response] in
    every case; with [debug] set they print it and then print [None]. *)
Theorem hostnode_getters_always_print (c : Call) (w : World) (r : Response)
    (v : pyval) :
  through_parse_response c = true ->
  status_code r < 400 \/ 600 <= status_code r ->
  content r = JsonBody v ->
  stdout (snd (invoke c (always (Answered r)) w))
  = (stdout w ++ OutDumps 2 v
       :: (if debug (self w) then [OutDumps 2 PyNone] else []))%list.
Proof.
  intros Hc Hstatus Hbody.
  pose proof (http_error_msg_other_status r Hstatus) as Hm.
  destruct c; try discriminate Hc; run; rewrite Hm, Hbody; cbn;
    destruct (debug (self w)); cbn; rewrite <- ?app_assoc; reflexivity.
Qed.

Lemma hostnode_getters_always_print_witness :
  stdout (snd (invoke (GetSpecificHostnode "abc-123")
                 (always (Answered (mkResponse 200 "OK" "u" (JsonBody success_true))))
                 (boot (__init__ "API_KEY" "API_TOKEN" false))))
  = ([] ++ OutDumps 2 success_true :: [])%list.
Proof.
  apply (hostnode_getters_always_print (GetSpecificHostnode "abc-123")
           (boot (__init__ "API_KEY" "API_TOKEN" false))
           (mkResponse 200 "OK" "u" (JsonBody success_true)) success_true).
  - reflexivity.
  - left. cbn. lia.
  - reflexivity.
Defined.

(** ** The script *)

